(** * quantum.py: the six-sensor emergency rule as a quantum circuit

    A shallow embedding of [src/quantum.py] and of the parts of its
    collaborators (the Python data model, [os], Qiskit, Qiskit Aer and
    pyplot) that the script relies on, followed by the properties of the
    script proved over that embedding.

    Conventions.
    - Python values that may appear in a sensor list are the inductive
      [value]; [==] and [in] are [py_eq] and [py_in].
    - The script runs in a [world]: the directories and image files on disk,
      pyplot's registry of open figures and what has been printed.  A
      computation is a function from the world to an [outcome], which keeps
      the world also when an exception propagates, so that what an aborted
      invocation leaves behind can be stated.
    - Whether a call into the operating system or into a library raises is
      decided by an [env], a fault oracle over [extcall].
    - The simulator is the ideal one that [AerSimulator()] gives: no noise
      model.  The script emits X, multi-controlled X and measurements only,
      so a register is a computational basis state throughout.
    - Paths follow [posixpath]. *)

From Stdlib Require Import ZArith Ascii String.
From stdpp Require Import gmap strings list fin_maps.

(** ** Python values, [==] and [in] *)

Inductive value :=
  | VInt (n : Z)
  | VBool (b : bool)
  | VStr (s : string)
  | VNone.

(** [a == b].  [bool] is a subclass of [int]: [True == 1] and [False == 0]. *)
Definition py_eq (a b : value) : bool :=
  match a, b with
  | VInt x, VInt y => (x =? y)%Z
  | VInt x, VBool y => (x =? Z.b2z y)%Z
  | VBool x, VInt y => (Z.b2z x =? y)%Z
  | VBool x, VBool y => Bool.eqb x y
  | VStr x, VStr y => String.eqb x y
  | VNone, VNone => true
  | _, _ => false
  end.

(** [v in t] for a tuple [t]: some element of [t] equals [v]. *)
Definition py_in (v : value) (t : list value) : bool :=
  existsb (fun e => py_eq v e) t.

(** [any(p(v) for v in l)]. *)
Definition any {A : Type} (p : A -> bool) (l : list A) : bool := existsb p l.

(** The guard of line 27:
    [len(sensors) != 6 or any(v not in (0, 1) for v in sensors)]. *)
Definition invalid_sensors (sensors : list value) : bool :=
  negb (length sensors =? 6) ||
  any (fun v => negb (py_in v [VInt 0; VInt 1])) sensors.

(** ** Qiskit: circuits of the three instructions the script emits *)

Inductive instruction :=
  | XGate (q : nat)
  | MCXGate (controls : list nat) (target : nat)
  | Measure (q c : nat).

Record QuantumCircuit := mkQuantumCircuit {
  num_qubits : nat;
  num_clbits : nat;
  data : list instruction
}.

(** [QuantumCircuit(n, m)]. *)
Definition new_circuit (n m : nat) : QuantumCircuit :=
  {| num_qubits := n; num_clbits := m; data := [] |}.

Definition append (qc : QuantumCircuit) (i : instruction) : QuantumCircuit :=
  {| num_qubits := num_qubits qc; num_clbits := num_clbits qc;
     data := data qc ++ [i] |}.

Definition in_range (n : nat) (l : list nat) : bool :=
  forallb (fun q => q <? n) l.

Fixpoint distinct (l : list nat) : bool :=
  match l with
  | [] => true
  | q :: rest => negb (existsb (Nat.eqb q) rest) && distinct rest
  end.

(** [qc.x(q)]; a [CircuitError] ([None]) when the index is out of range. *)
Definition qc_x (qc : QuantumCircuit) (q : nat) : option QuantumCircuit :=
  if q <? num_qubits qc then Some (append qc (XGate q)) else None.

(** [qc.mcx(controls, target)]; indices in range and pairwise distinct. *)
Definition qc_mcx (qc : QuantumCircuit) (controls : list nat) (target : nat)
  : option QuantumCircuit :=
  if in_range (num_qubits qc) (controls ++ [target])
     && distinct (controls ++ [target])
  then Some (append qc (MCXGate controls target)) else None.

(** [qc.measure(qubits, clbits)]: one measurement per pair. *)
Fixpoint qc_measure (qc : QuantumCircuit) (qubits clbits : list nat)
  : option QuantumCircuit :=
  match qubits, clbits with
  | [], [] => Some qc
  | q :: qs, c :: cs =>
      if (q <? num_qubits qc) && (c <? num_clbits qc)
      then qc_measure (append qc (Measure q c)) qs cs
      else None
  | _, _ => None
  end.

(** Lines 36-38: [for i, val in enumerate(sensors): if val == 0: qc.x(i)],
    [i] being the index of the head of [sensors]. *)
Fixpoint init_sensors (i : nat) (sensors : list value) (qc : QuantumCircuit)
  : option QuantumCircuit :=
  match sensors with
  | [] => Some qc
  | val :: rest =>
      qc' ← (if py_eq val (VInt 0) then qc_x qc i else Some qc);
      init_sensors (S i) rest qc'
  end.

(** Lines 33-45: the circuit of the invocation. *)
Definition fsm_circuit (sensors : list value) : option QuantumCircuit :=
  qc ← init_sensors 0 sensors (new_circuit 9 3);
  qc ← qc_mcx qc [0; 1; 2; 3; 4; 5] 6;
  qc_measure qc [6; 7; 8] [2; 1; 0].

(** ** Aer: ideal simulation of a circuit of X, MCX and measurements

    The register starts in |0...0>.  X and MCX permute the computational
    basis, so the register stays in a basis state, which is a list of
    booleans; a measurement copies a qubit to its classical bit. *)

Record register := mkRegister {
  qubits : list bool;
  clbits : list bool
}.

Definition flip (q : nat) (qs : list bool) : list bool := alter negb q qs.

Definition exec (r : register) (i : instruction) : register :=
  match i with
  | XGate q => {| qubits := flip q (qubits r); clbits := clbits r |}
  | MCXGate controls target =>
      if forallb (fun c => default false (qubits r !! c)) controls
      then {| qubits := flip target (qubits r); clbits := clbits r |}
      else r
  | Measure q c =>
      {| qubits := qubits r;
         clbits := <[c := default false (qubits r !! q)]> (clbits r) |}
  end.

Definition zero_register (qc : QuantumCircuit) : register :=
  {| qubits := replicate (num_qubits qc) false;
     clbits := replicate (num_clbits qc) false |}.

Definition bit_char (b : bool) : ascii := if b then "1"%char else "0"%char.

(** The key of a shot: classical bit 0 is the rightmost character. *)
Definition bitstring (cl : list bool) : string :=
  string_of_list_ascii (map bit_char (rev cl)).

(** One shot: run the instructions in order, read the classical bits. *)
Definition shot (qc : QuantumCircuit) : string :=
  bitstring (clbits (foldl exec (zero_register qc) (data qc))).

(** [Counts]: how many shots gave each key. *)
Definition tally (memory : list string) : gmap string Z :=
  foldr (fun key acc => <[key := (default 0 (acc !! key) + 1)%Z]> acc)
        ∅ memory.

Definition sample (qc : QuantumCircuit) (shots : Z) : gmap string Z :=
  tally (replicate (Z.to_nat shots) (shot qc)).

(** [sum(counts.values())]. *)
Definition total (counts : gmap string Z) : Z :=
  map_fold (fun _ n acc => (n + acc)%Z) 0%Z counts.

(** [max(counts, key=counts.get)], [None] on an empty mapping. *)
Definition dominant (counts : gmap string Z) : option string :=
  fst <$> foldr (fun kv best =>
                   match best with
                   | Some b => if (b.2 <? kv.2)%Z then Some kv else Some b
                   | None => Some kv
                   end) None (map_to_list counts).

(** ** The world, exceptions and the fault oracle *)

(** What [plot_histogram] is given: one counts mapping (line 66) or a
    mapping from labels to counts (line 86). *)
Inductive hist_data :=
  | Single (counts : gmap string Z)
  | Labelled (counts_dict : gmap string (gmap string Z)).

(** What a figure shows, and what an image file holds once saved. *)
Inductive picture :=
  | Blank
  | CircuitDiagram (qc : QuantumCircuit)
  | HistogramPlot (d : hist_data).

(** What the three [print] calls of lines 60-62 write. *)
Inductive line :=
  | Banner (tag : string)
  | InputSensor (sensors : list value)
  | MeasurementState (counts : gmap string Z).

Record world := mkWorld {
  dirs : gset string;
  files : gmap string picture;
  figures : gmap nat picture;
  stdout : list line
}.

(** The calls that leave the script and may raise for reasons outside it. *)
Inductive extcall :=
  | Makedirs (path : string)
  | CircuitDrawer
  | Savefig (path : string)
  | Transpile
  | BackendRun
  | PlotHistogram
  | PltFigure
  | PltShow.

(** [E c = true]: the call [c] raises in this environment. *)
Definition env := extcall -> bool.

Inductive exn :=
  | ValueError
  | CircuitError
  | FileNotFoundError
  | FileExistsError
  | IsADirectoryError
  | ShotsError
  | Raised (c : extcall).

Inductive outcome (A : Type) :=
  | Done (w : world) (a : A)
  | Abort (w : world) (e : exn).
Arguments Done {A} w a.
Arguments Abort {A} w e.

Definition io (A : Type) : Type := world -> outcome A.

Definition ret {A : Type} (a : A) : io A := fun w => Done w a.

Definition raise {A : Type} (e : exn) : io A := fun w => Abort w e.

Definition bind {A B : Type} (m : io A) (k : A -> io B) : io B :=
  fun w => match m w with
           | Done w' a => k a w'
           | Abort w' e => Abort w' e
           end.

Declare Scope io_scope.
Delimit Scope io_scope with io.
Notation "'do' x <- m ; k" := (bind m (fun x => k))
  (at level 10, x name, m at level 100, k at level 200,
   format "'[v' 'do'  x  <-  m ; '/' k ']'") : io_scope.
Notation "'do_' m ; k" := (bind m (fun _ => k))
  (at level 10, m at level 100, k at level 200,
   format "'[v' 'do_'  m ; '/' k ']'") : io_scope.
Open Scope io_scope.

(** An exception of the library for a construction that returned [None]. *)
Definition lift {A : Type} (e : exn) (o : option A) : io A :=
  match o with
  | Some a => ret a
  | None => raise e
  end.

(** A call that raises when the environment says so. *)
Definition guard (E : env) (c : extcall) : io unit :=
  fun w => if E c then Abort w (Raised c) else Done w tt.

Definition world_of {A : Type} (o : outcome A) : world :=
  match o with
  | Done w _ => w
  | Abort w _ => w
  end.

(** ** [os] *)

Fixpoint ends_with_slash (s : string) : bool :=
  match s with
  | EmptyString => false
  | String c EmptyString => Ascii.eqb c "/"
  | String _ rest => ends_with_slash rest
  end.

Definition is_absolute (s : string) : bool :=
  match s with
  | String c _ => Ascii.eqb c "/"
  | EmptyString => false
  end.

(** [os.path.join(a, b)]. *)
Definition os_path_join (a b : string) : string :=
  if is_absolute b then b
  else if String.eqb a "" || ends_with_slash a then a +:+ b
  else a +:+ "/" +:+ b.

(** [os.makedirs(path, exist_ok=True)]: nothing to do for a directory that
    exists; no directory has the empty name, and none can take the name of a
    file. *)
Definition os_makedirs (E : env) (path : string) : io unit :=
  fun w =>
    if String.eqb path "" then Abort w FileNotFoundError
    else if bool_decide (path ∈ dirs w) then Done w tt
    else if bool_decide (is_Some (files w !! path)) then Abort w FileExistsError
    else if E (Makedirs path) then Abort w (Raised (Makedirs path))
    else Done {| dirs := {[path]} ∪ dirs w; files := files w;
                 figures := figures w; stdout := stdout w |} tt.

(** Lines 10-12. *)
Definition ensure_outdir (E : env) (outdir : string) : io string :=
  do_ os_makedirs E outdir;
  ret outdir.

(** ** pyplot and the drawing functions *)

(** A new figure showing [p], registered with pyplot under a fresh number. *)
Definition new_figure (p : picture) : io nat :=
  fun w =>
    let fig := fresh (dom (figures w)) in
    Done {| dirs := dirs w; files := files w;
            figures := <[fig := p]> (figures w); stdout := stdout w |} fig.

(** [plt.figure()]. *)
Definition plt_figure (E : env) : io nat :=
  do_ guard E PltFigure;
  new_figure Blank.

(** [circuit_drawer(qc, output="mpl")]. *)
Definition circuit_drawer (E : env) (qc : QuantumCircuit) : io nat :=
  do_ guard E CircuitDrawer;
  new_figure (CircuitDiagram qc).

(** [plot_histogram(data)]. *)
Definition plot_histogram (E : env) (d : hist_data) : io nat :=
  do_ guard E PlotHistogram;
  new_figure (HistogramPlot d).

(** [fig.savefig(path, ...)]: the image of the figure replaces the file.
    A directory cannot be overwritten; a missing parent directory, missing
    permissions or a full disk are faults of the environment.  A figure that
    was closed can still be saved; it is no longer known to the registry,
    and the model writes a blank image for it. *)
Definition savefig (E : env) (fig : nat) (path : string) : io unit :=
  fun w =>
    if bool_decide (path ∈ dirs w) then Abort w IsADirectoryError
    else if E (Savefig path) then Abort w (Raised (Savefig path))
    else
      let image := default Blank (figures w !! fig) in
      Done {| dirs := dirs w; files := <[path := image]> (files w);
              figures := figures w; stdout := stdout w |} tt.

(** [plt.show()]: display only. *)
Definition plt_show (E : env) : io unit := guard E PltShow.

(** [plt.close(fig)]. *)
Definition plt_close (fig : nat) : io unit :=
  fun w => Done {| dirs := dirs w; files := files w;
                   figures := delete fig (figures w); stdout := stdout w |} tt.

(** [print(...)]. *)
Definition print (l : line) : io unit :=
  fun w => Done {| dirs := dirs w; files := files w;
                   figures := figures w; stdout := stdout w ++ [l] |} tt.

(** ** Aer behind the fault oracle *)

(** [transpile(qc, backend)]: the same computation for the backend. *)
Definition transpile (E : env) (qc : QuantumCircuit) : io QuantumCircuit :=
  do_ guard E Transpile;
  ret qc.

(** [backend.run(tqc, shots=shots).result().get_counts(tqc)]: the shot count
    is a positive integer, anything else is rejected. *)
Definition run_counts (E : env) (tqc : QuantumCircuit) (shots : Z)
  : io (gmap string Z) :=
  do_ guard E BackendRun;
  if (0 <? shots)%Z then ret (sample tqc shots) else raise ShotsError.

(** ** The script *)

(** Lines 16-72. *)
Definition simulate_fsm_quantum (E : env) (sensors : list value) (shots : Z)
    (tag outdir : string) (show : bool)
  : io (gmap string Z * string * string) :=
  if invalid_sensors sensors then raise ValueError else
  do outdir <- ensure_outdir E outdir;
  do qc <- lift CircuitError (fsm_circuit sensors);
  let circuit_path := os_path_join outdir ("circuit_" +:+ tag +:+ ".png") in
  do fig_circ <- circuit_drawer E qc;
  do_ savefig E fig_circ circuit_path;
  do_ plt_close fig_circ;
  do tqc <- transpile E qc;
  do counts <- run_counts E tqc shots;
  do_ print (Banner tag);
  do_ print (InputSensor sensors);
  do_ print (MeasurementState counts);
  let hist_path := os_path_join outdir ("hist_" +:+ tag +:+ ".png") in
  do fig_hist <- plot_histogram E (Single counts);
  do_ savefig E fig_hist hist_path;
  do_ (if show then plt_show E else ret tt);
  do_ plt_close fig_hist;
  ret (counts, circuit_path, hist_path).

(** Lines 75-90. *)
Definition save_summary_hist (E : env)
    (counts_dict : gmap string (gmap string Z)) (outdir filename : string)
  : io string :=
  do outdir <- ensure_outdir E outdir;
  let path := os_path_join outdir filename in
  do fig <- plt_figure E;
  do fig <- plot_histogram E (Labelled counts_dict);
  do_ savefig E fig path;
  do_ plt_close fig;
  ret path.

(** The defaults of the two signatures. *)
Definition default_shots : Z := 1024.
Definition default_tag : string := "case".
Definition default_outdir : string := "outputs".
Definition default_filename : string := "summary_hist.png".

(** An environment in which no call raises, and an empty world. *)
Definition calm : env := fun _ => false.

Definition empty_world : world :=
  {| dirs := ∅; files := ∅; figures := ∅; stdout := [] |}.

Definition zeros : list value := replicate 6 (VInt 0).
Definition ones : list value := replicate 6 (VInt 1).

(** ** Vocabulary of the specification *)

(** A sensor reading: 0 or 1, as an integer or as the boolean equal to it. *)
Definition binary (v : value) : Prop :=
  exists b : bool, v = VInt (Z.b2z b) \/ v = VBool b.

(** A SensorVector: six binary readings. *)
Definition valid_sensors (sensors : list value) : Prop :=
  length sensors = 6 /\ Forall binary sensors.

(** The reading is abnormal: [val == 0]. *)
Definition abnormal (v : value) : bool := py_eq v (VInt 0).

Definition all_abnormal (sensors : list value) : bool :=
  forallb abnormal sensors.

(** The state the encoding rule expects. *)
Definition expected_state (sensors : list value) : string :=
  if all_abnormal sensors then "100" else "000".

(** The X gates of the sensor loop, the head of [sensors] having index [i]. *)
Fixpoint x_gates (i : nat) (sensors : list value) : list instruction :=
  match sensors with
  | [] => []
  | v :: rest => (if abnormal v then [XGate i] else []) ++ x_gates (S i) rest
  end.

(** The instructions that follow the sensor loop. *)
Definition rule_and_readout : list instruction :=
  [MCXGate [0; 1; 2; 3; 4; 5] 6; Measure 6 2; Measure 7 1; Measure 8 0].

(** The circuit the script builds: the sensor loop, then the rule and the
    readout, on nine qubits and three classical bits. *)
Definition circuit_of (sensors : list value) : QuantumCircuit :=
  mkQuantumCircuit 9 3 (x_gates 0 sensors ++ rule_and_readout).

Definition is_bit (c : ascii) : bool := Ascii.eqb c "0" || Ascii.eqb c "1".

(** A bitstring of length 3. *)
Definition state_label (s : string) : Prop :=
  String.length s = 3 /\ forallb is_bit (list_ascii_of_string s) = true.

(** The paths of the two images of an invocation (lines 48 and 65). *)
Definition circuit_path_of (outdir tag : string) : string :=
  os_path_join outdir ("circuit_" +:+ tag +:+ ".png").

Definition hist_path_of (outdir tag : string) : string :=
  os_path_join outdir ("hist_" +:+ tag +:+ ".png").

(** The directory can be made, or is there already. *)
Definition dir_available (E : env) (outdir : string) (w : world) : Prop :=
  outdir <> "" /\
  (outdir ∈ dirs w \/
   (files w !! outdir = None /\ E (Makedirs outdir) = false)).

(** An image can be saved at [path] once [outdir] exists. *)
Definition writable (E : env) (outdir path : string) (w : world) : Prop :=
  (path ∉ ({[outdir]} ∪ dirs w : gset string)) /\ E (Savefig path) = false.

(** Nothing stands in the way of an invocation. *)
Definition runnable (E : env) (sensors : list value) (shots : Z)
    (tag outdir : string) (show : bool) (w : world) : Prop :=
  valid_sensors sensors /\
  dir_available E outdir w /\
  E CircuitDrawer = false /\
  writable E outdir (circuit_path_of outdir tag) w /\
  E Transpile = false /\ E BackendRun = false /\ (0 < shots)%Z /\
  E PlotHistogram = false /\
  writable E outdir (hist_path_of outdir tag) w /\
  (show = true -> E PltShow = false).

(** The world a completed invocation leaves behind. *)
Definition world_after (sensors : list value) (shots : Z)
    (tag outdir : string) (w : world) : world :=
  let qc := circuit_of sensors in
  let counts : gmap string Z := {[ expected_state sensors := shots ]} in
  {| dirs := {[outdir]} ∪ dirs w;
     files := <[hist_path_of outdir tag := HistogramPlot (Single counts)]>
                (<[circuit_path_of outdir tag := CircuitDiagram qc]> (files w));
     figures := figures w;
     stdout := stdout w ++
               [Banner tag; InputSensor sensors; MeasurementState counts] |}.

(** Exceptions that can end an invocation before the circuit image is on
    disk, and after it. *)
Definition before_circuit_image (outdir tag : string) (e : exn) : Prop :=
  e ∈ [FileNotFoundError; FileExistsError; Raised (Makedirs outdir);
       Raised CircuitDrawer; IsADirectoryError;
       Raised (Savefig (circuit_path_of outdir tag))].

Definition after_circuit_image (outdir tag : string) (e : exn) : Prop :=
  e ∈ [Raised Transpile; Raised BackendRun; ShotsError; Raised PlotHistogram;
       IsADirectoryError; Raised (Savefig (hist_path_of outdir tag))].



(** ** The script run as a program (lines 93-129) *)




(** ** Where an invocation can stop *)

(** The steps of [simulate_fsm_quantum] that can raise. *)
Inductive abort_point :=
  | AtValidation
  | AtMakedirs
  | AtCircuitDrawer
  | AtSaveCircuit
  | AtTranspile
  | AtRun
  | AtPlotHistogram
  | AtSaveHistogram
  | AtShow.

Definition with_dir (outdir : string) (w : world) : world :=
  {| dirs := {[outdir]} ∪ dirs w; files := files w;
     figures := figures w; stdout := stdout w |}.

Definition with_file (path : string) (p : picture) (w : world) : world :=
  {| dirs := dirs w; files := <[path := p]> (files w);
     figures := figures w; stdout := stdout w |}.

Definition with_figure (p : picture) (w : world) : world :=
  {| dirs := dirs w; files := files w;
     figures := <[fresh (dom (figures w)) := p]> (figures w);
     stdout := stdout w |}.

Definition with_lines (ls : list line) (w : world) : world :=
  {| dirs := dirs w; files := files w;
     figures := figures w; stdout := stdout w ++ ls |}.

(** The world in which the exception of an abort point propagates. *)
Definition world_at (pt : abort_point) (sensors : list value) (shots : Z)
    (tag outdir : string) (w : world) : world :=
  let circuit := CircuitDiagram (circuit_of sensors) in
  let counts : gmap string Z := {[ expected_state sensors := shots ]} in
  let hist := HistogramPlot (Single counts) in
  let made := with_dir outdir w in
  let drawn := with_file (circuit_path_of outdir tag) circuit made in
  let printed :=
    with_lines [Banner tag; InputSensor sensors; MeasurementState counts]
               drawn in
  match pt with
  | AtValidation | AtMakedirs => w
  | AtCircuitDrawer => made
  | AtSaveCircuit => with_figure circuit made
  | AtTranspile | AtRun => drawn
  | AtPlotHistogram => printed
  | AtSaveHistogram => with_figure hist printed
  | AtShow => with_file (hist_path_of outdir tag) hist
                (with_figure hist printed)
  end.

(** The exceptions an abort point can raise. *)
Definition raised_at (pt : abort_point) (tag outdir : string) : list exn :=
  match pt with
  | AtValidation => [ValueError]
  | AtMakedirs =>
      [FileNotFoundError; FileExistsError; Raised (Makedirs outdir)]
  | AtCircuitDrawer => [Raised CircuitDrawer]
  | AtSaveCircuit =>
      [IsADirectoryError; Raised (Savefig (circuit_path_of outdir tag))]
  | AtTranspile => [Raised Transpile]
  | AtRun => [Raised BackendRun; ShotsError]
  | AtPlotHistogram => [Raised PlotHistogram]
  | AtSaveHistogram =>
      [IsADirectoryError; Raised (Savefig (hist_path_of outdir tag))]
  | AtShow => [Raised PltShow]
  end.

(** The number of abnormal readings. *)
Definition count_abnormal (sensors : list value) : nat :=
  length (filter (fun v => abnormal v = true) sensors).

(** * Properties *)

(** ** Validation *)

Lemma py_in_binary (v : value) :
  py_in v [VInt 0; VInt 1] = true <-> binary v.
Proof.
  unfold py_in, binary; split.
  - destruct v as [n|b| |]; simpl; try discriminate.
    + rewrite orb_false_r, orb_true_iff, !Z.eqb_eq.
      intros [->| ->]; [exists false|exists true]; by left.
    + intros _. exists b. by right.
  - intros [b [->| ->]]; by destruct b.
Qed.

Lemma any_negb_false {A : Type} (p : A -> bool) (l : list A) :
  any (fun v => negb (p v)) l = false <-> Forall (fun v => p v = true) l.
Proof.
  unfold any. induction l as [|a l IH]; simpl.
  - split; [constructor|done].
  - rewrite orb_false_iff, negb_false_iff, IH, Forall_cons. done.
Qed.

Lemma invalid_sensors_false (sensors : list value) :
  invalid_sensors sensors = false <-> valid_sensors sensors.
Proof.
  unfold invalid_sensors, valid_sensors.
  rewrite orb_false_iff, negb_false_iff, Nat.eqb_eq, any_negb_false.
  split; intros [Hl Hb]; (split; [done|]);
    eapply Forall_impl; eauto; intros v; apply py_in_binary.
Qed.

Lemma invalid_sensors_true (sensors : list value) :
  invalid_sensors sensors = true <->
  length sensors <> 6 \/ exists v, v ∈ sensors /\ ~ binary v.
Proof.
  unfold invalid_sensors, any.
  rewrite orb_true_iff, negb_true_iff, Nat.eqb_neq, existsb_exists.
  split; (intros [Hl|(v & Hv & Hb)]; [by left|right; exists v]).
  - rewrite list_elem_of_In, <- py_in_binary. split; [done|].
    by destruct (py_in v _).
  - rewrite <- list_elem_of_In. split; [done|].
    rewrite <- py_in_binary in Hb. by destruct (py_in v _).
Qed.

(** All readings abnormal: every one is the integer 0 or [False]. *)
Lemma all_abnormal_true (sensors : list value) :
  Forall binary sensors ->
  all_abnormal sensors = true <->
  Forall (fun v => v = VInt 0 \/ v = VBool false) sensors.
Proof.
  unfold all_abnormal. intros Hbin.
  rewrite forallb_forall, Forall_forall. rewrite Forall_forall in Hbin.
  split; intros H v Hv.
  - pose proof (H v (proj1 (list_elem_of_In _ _) Hv)) as Hab.
    destruct (Hbin v Hv) as [[|] [->| ->]]; try discriminate Hab; auto.
  - apply list_elem_of_In in Hv. by destruct (H v Hv) as [->| ->].
Qed.

(** ** The circuit *)

Section Circuit.

Implicit Types (sensors : list value) (qc : QuantumCircuit).

Lemma init_sensors_Some sensors : forall i qc qc',
  init_sensors i sensors qc = Some qc' ->
  qc' = {| num_qubits := num_qubits qc; num_clbits := num_clbits qc;
           data := data qc ++ x_gates i sensors |}.
Proof.
  induction sensors as [|v rest IH]; intros i qc qc'; simpl.
  - intros [= <-]. rewrite app_nil_r. by destruct qc.
  - unfold abnormal, qc_x.
    destruct (py_eq v (VInt 0)); simpl.
    + destruct (i <? num_qubits qc); simpl; [|discriminate].
      intros ->%IH. simpl. by rewrite <- app_assoc.
    + intros ->%IH. done.
Qed.

Lemma init_sensors_fits sensors : forall i qc,
  i + length sensors <= num_qubits qc ->
  is_Some (init_sensors i sensors qc).
Proof.
  induction sensors as [|v rest IH]; intros i qc Hfit; simpl in *.
  - eauto.
  - unfold qc_x. destruct (py_eq v (VInt 0)); simpl.
    + destruct (Nat.ltb_spec i (num_qubits qc)); [|lia].
      simpl. apply IH. simpl. lia.
    + apply IH. lia.
Qed.

(** Whatever the sensor loop emitted, the rule and the readout follow. *)
Lemma fsm_circuit_Some sensors qc :
  fsm_circuit sensors = Some qc ->
  qc = circuit_of sensors.
Proof.
  unfold fsm_circuit.
  destruct (init_sensors 0 sensors (new_circuit 9 3)) as [qc0|] eqn:H0;
    simpl; [|discriminate].
  apply init_sensors_Some in H0. subst qc0. simpl.
  intros [= <-]. unfold append. simpl.
  by rewrite <- !app_assoc.
Qed.

(** Six sensors fit the nine qubits: the construction cannot fail. *)
Lemma fsm_circuit_six sensors :
  length sensors = 6 ->
  fsm_circuit sensors = Some (circuit_of sensors).
Proof.
  intros Hl.
  destruct (init_sensors_fits sensors 0 (new_circuit 9 3)) as [qc0 H0].
  { simpl. lia. }
  destruct (fsm_circuit sensors) as [qc|] eqn:Hqc.
  - by rewrite (fsm_circuit_Some _ _ Hqc).
  - exfalso. unfold fsm_circuit in Hqc. rewrite H0 in Hqc.
    apply init_sensors_Some in H0. subst qc0. discriminate Hqc.
Qed.

Lemma x_gates_sensor_lines sensors : forall i,
  Forall (fun g => exists q, g = XGate q /\ i <= q < i + length sensors)
         (x_gates i sensors).
Proof.
  induction sensors as [|v rest IH]; intros i; simpl; [constructor|].
  apply Forall_app. split.
  - destruct (abnormal v); repeat constructor. exists i. split; [done|lia].
  - eapply Forall_impl; [apply IH|]. simpl.
    intros g (q & -> & Hq). exists q. split; [done|lia].
Qed.

(** A gate is laid on sensor line [q] exactly when reading [q] is abnormal. *)
Lemma x_gates_abnormal sensors q : forall i,
  XGate (i + q) ∈ x_gates i sensors <-> abnormal <$> sensors !! q = Some true.
Proof.
  revert q. induction sensors as [|v rest IH]; intros q i; simpl.
  - split; [by intros ?%elem_of_nil|done].
  - rewrite elem_of_app. destruct q as [|q]; simpl.
    + rewrite Nat.add_0_r. split.
      * intros [Hin|Hin].
        -- destruct (abnormal v); [done|by apply elem_of_nil in Hin].
        -- pose proof (x_gates_sensor_lines rest (S i)) as HF.
           rewrite Forall_forall in HF.
           destruct (HF _ Hin) as (q' & [= <-] & Hq'). lia.
      * intros [= ->]. left. apply list_elem_of_here.
    + replace (i + S q) with (S i + q) by lia. rewrite <- IH.
      split; [|by right]. intros [Hin|Hin]; [|done].
      destruct (abnormal v); [|by apply elem_of_nil in Hin].
      apply list_elem_of_singleton in Hin. injection Hin. lia.
Qed.

End Circuit.

(** ** The ideal backend *)

Section Backend.

Implicit Types (qc : QuantumCircuit) (shots : Z).

(** The readout: qubit 6 ends up leftmost, qubit 8 rightmost. *)
Lemma readout_order (r : register) :
  length (clbits r) = 3 ->
  bitstring (clbits (foldl exec r [Measure 6 2; Measure 7 1; Measure 8 0])) =
    String (bit_char (default false (qubits r !! 6)))
      (String (bit_char (default false (qubits r !! 7)))
         (String (bit_char (default false (qubits r !! 8))) EmptyString)).
Proof.
  destruct r as [qs [|c0 [|c1 [|c2 [|c3 cs]]]]]; simpl; try discriminate.
  intros _. reflexivity.
Qed.

(** The shot of the circuit of six sensors is the state of the rule. *)
Lemma shot_fsm sensors :
  length sensors = 6 ->
  shot (circuit_of sensors) = expected_state sensors.
Proof.
  intros Hl.
  destruct sensors as [|a [|b [|c [|d [|e [|f [|g rest]]]]]]];
    try discriminate Hl.
  unfold expected_state, all_abnormal, shot, circuit_of.
  cbn [x_gates forallb].
  destruct (abnormal a), (abnormal b), (abnormal c), (abnormal d),
    (abnormal e), (abnormal f); reflexivity.
Qed.

Lemma tally_replicate (n : nat) (key : string) :
  tally (replicate (S n) key) = {[ key := Z.of_nat (S n) ]}.
Proof.
  induction n as [|n IH].
  - simpl. rewrite lookup_empty. simpl. apply insert_empty.
  - change (replicate (S (S n)) key) with (key :: replicate (S n) key).
    unfold tally in *. cbn [foldr]. rewrite IH.
    rewrite lookup_singleton_eq, insert_singleton_eq. simpl.
    f_equal. lia.
Qed.

(** Every shot of a circuit without superposition gives the same key. *)
Lemma sample_singleton qc shots :
  (0 < shots)%Z -> sample qc shots = {[ shot qc := shots ]}.
Proof.
  intros Hs. unfold sample.
  destruct (Z.to_nat shots) as [|n] eqn:Hn; [lia|].
  rewrite tally_replicate. f_equal. lia.
Qed.

Lemma total_singleton (key : string) (n : Z) : total {[ key := n ]} = n.
Proof. unfold total. rewrite map_fold_singleton. lia. Qed.

Lemma dominant_singleton (key : string) (n : Z) :
  dominant {[ key := n ]} = Some key.
Proof. unfold dominant. by rewrite map_to_list_singleton. Qed.

Lemma expected_state_label sensors : state_label (expected_state sensors).
Proof. unfold expected_state. by destruct (all_abnormal sensors). Qed.

End Backend.

(** ** Computations in a world *)

(** Membership in an explicit list of exceptions. *)
Ltac among :=
  rewrite ?elem_of_cons, ?elem_of_nil in *; intuition congruence.

Section Steps.

Context (E : env).
Implicit Types (w : world) (path : string).

Lemma bind_Done {A B : Type} (m : io A) (k : A -> io B) w w' b :
  bind m k w = Done w' b <->
  exists w1 a, m w = Done w1 a /\ k a w1 = Done w' b.
Proof.
  unfold bind. split.
  - destruct (m w) as [w1 a|w1 e]; [eauto|discriminate].
  - intros (w1 & a & -> & Hk). exact Hk.
Qed.

Lemma bind_Abort {A B : Type} (m : io A) (k : A -> io B) w w' e :
  bind m k w = Abort w' e <->
  m w = Abort w' e \/ exists w1 a, m w = Done w1 a /\ k a w1 = Abort w' e.
Proof.
  unfold bind. split.
  - destruct (m w) as [w1 a|w1 e1]; [eauto|]. intros [= -> ->]. by left.
  - intros [->|(w1 & a & -> & Hk)]; done.
Qed.

Lemma guard_Done c w w' u :
  guard E c w = Done w' u <-> E c = false /\ w' = w.
Proof.
  unfold guard. destruct (E c), u; split;
    try discriminate; try (intros [? ?]; discriminate);
    [by intros [= <-]|by intros [_ ->]].
Qed.

Lemma guard_Abort c w w' e :
  guard E c w = Abort w' e <-> E c = true /\ w' = w /\ e = Raised c.
Proof.
  unfold guard. destruct (E c); split;
    try discriminate; try (intros [? ?]; discriminate);
    [by intros [= <- <-]|by intros (_ & -> & ->)].
Qed.

Lemma os_makedirs_Done path w w' u :
  os_makedirs E path w = Done w' u <->
  dir_available E path w /\
  w' = {| dirs := {[path]} ∪ dirs w; files := files w;
          figures := figures w; stdout := stdout w |}.
Proof.
  unfold os_makedirs, dir_available. destruct u.
  destruct (String.eqb_spec path "") as [->|Hne].
  { split; [discriminate|by intros [[? _] _]]. }
  case_bool_decide as Hd.
  { rewrite (subseteq_union_1_L {[path]} (dirs w))
      by (by apply singleton_subseteq_l).
    split.
    - intros [= <-]. split; [auto|by destruct w].
    - intros [_ ->]. by destruct w. }
  case_bool_decide as Hf.
  { split; [discriminate|].
    intros [[_ [?|[Hn _]]] _]; [done|].
    rewrite Hn in Hf. by destruct Hf. }
  apply eq_None_not_Some in Hf.
  destruct (E (Makedirs path)) eqn:HE.
  { split; [discriminate|]. intros [[_ [?|[_ ?]]] _]; done. }
  split.
  - intros [= <-]. auto.
  - by intros [_ ->].
Qed.

Lemma savefig_Done fig path w w' u :
  savefig E fig path w = Done w' u <->
  (path ∉ dirs w) /\ E (Savefig path) = false /\
  w' = {| dirs := dirs w;
          files := <[path := default Blank (figures w !! fig)]> (files w);
          figures := figures w; stdout := stdout w |}.
Proof.
  unfold savefig. destruct u.
  case_bool_decide as Hd.
  { split; [discriminate|]. by intros [? _]. }
  destruct (E (Savefig path)).
  { split; [discriminate|]. by intros (_ & ? & _). }
  split; [by intros [= <-]|by intros (_ & _ & ->)].
Qed.

Lemma fresh_figure_free (figs : gmap nat picture) :
  figs !! fresh (dom figs) = None.
Proof. apply not_elem_of_dom, is_fresh. Qed.

End Steps.

Section Calls.

Context (E : env).
Implicit Types (w : world) (path : string).

Lemma bind_step {A B : Type} (m : io A) (k : A -> io B) w w1 a :
  m w = Done w1 a -> bind m k w = k a w1.
Proof. unfold bind. by intros ->. Qed.

Lemma ensure_outdir_Done outdir w w' d :
  ensure_outdir E outdir w = Done w' d <->
  dir_available E outdir w /\ d = outdir /\
  w' = {| dirs := {[outdir]} ∪ dirs w; files := files w;
          figures := figures w; stdout := stdout w |}.
Proof.
  unfold ensure_outdir. rewrite bind_Done. split.
  - intros (w1 & u & Hm & [= <- <-]).
    apply os_makedirs_Done in Hm as [Hav ->]. done.
  - intros (Hav & -> & ->). eexists _, tt. split; [|done].
    by apply os_makedirs_Done.
Qed.

(** A drawing function: it may raise, else it hands out a new figure. *)
Lemma drawn_Done c p w w' fig :
  bind (guard E c) (fun _ => new_figure p) w = Done w' fig <->
  E c = false /\ fig = fresh (dom (figures w)) /\
  w' = {| dirs := dirs w; files := files w;
          figures := <[fig := p]> (figures w); stdout := stdout w |}.
Proof.
  rewrite bind_Done. unfold new_figure. split.
  - intros (w1 & u & [Hc ->]%guard_Done & [= <- <-]). done.
  - intros (Hc & -> & ->). exists w, tt. split; [|done].
    by apply guard_Done.
Qed.

Lemma transpile_Done qc w w' tqc :
  transpile E qc w = Done w' tqc <->
  E Transpile = false /\ tqc = qc /\ w' = w.
Proof.
  unfold transpile. rewrite bind_Done. split.
  - intros (w1 & u & [Hc ->]%guard_Done & [= <- <-]). done.
  - intros (Hc & -> & ->). exists w, tt. split; [|done].
    by apply guard_Done.
Qed.

Lemma run_counts_Done tqc shots w w' counts :
  run_counts E tqc shots w = Done w' counts <->
  E BackendRun = false /\ (0 < shots)%Z /\
  counts = {[ shot tqc := shots ]} /\ w' = w.
Proof.
  unfold run_counts. rewrite bind_Done. split.
  - intros (w1 & u & [Hc ->]%guard_Done & Hs).
    destruct (Z.ltb_spec 0 shots) as [Hlt|Hle]; [|discriminate].
    injection Hs as <- <-. by rewrite sample_singleton.
  - intros (Hc & Hlt & -> & ->). exists w, tt.
    split; [by apply guard_Done|].
    destruct (Z.ltb_spec 0 shots) as [_|Hle]; [|lia].
    by rewrite sample_singleton.
Qed.

Lemma show_Done (show : bool) w w' u :
  (if show then plt_show E else ret tt) w = Done w' u <->
  (show = true -> E PltShow = false) /\ w' = w.
Proof.
  destruct show, u.
  - unfold plt_show. rewrite guard_Done. intuition.
  - unfold ret. split; [by intros [= <-]|by intros [_ ->]].
Qed.

Lemma ensure_outdir_Abort outdir w w' e :
  ensure_outdir E outdir w = Abort w' e ->
  w' = w /\
  e ∈ [FileNotFoundError; FileExistsError; Raised (Makedirs outdir)].
Proof.
  unfold ensure_outdir. rewrite bind_Abort.
  intros [H|(w1 & u & _ & [=])]. unfold os_makedirs in H.
  repeat case_match; simplify_eq; (split; [done|among]).
Qed.

Lemma drawn_Abort c p w w' e :
  bind (guard E c) (fun _ => new_figure p) w = Abort w' e ->
  w' = w /\ e = Raised c.
Proof.
  rewrite bind_Abort. intros [(_ & -> & ->)%guard_Abort|(w1 & u & _ & [=])].
  done.
Qed.

Lemma savefig_Abort fig path w w' e :
  savefig E fig path w = Abort w' e ->
  w' = w /\ e ∈ [IsADirectoryError; Raised (Savefig path)].
Proof.
  unfold savefig.
  repeat case_match; intros; simplify_eq; (split; [done|among]).
Qed.

Lemma transpile_Abort qc w w' e :
  transpile E qc w = Abort w' e -> w' = w /\ e = Raised Transpile.
Proof.
  unfold transpile. rewrite bind_Abort.
  intros [(_ & -> & ->)%guard_Abort|(w1 & u & _ & [=])]. done.
Qed.

Lemma run_counts_Abort tqc shots w w' e :
  run_counts E tqc shots w = Abort w' e ->
  w' = w /\ e ∈ [Raised BackendRun; ShotsError].
Proof.
  unfold run_counts. rewrite bind_Abort.
  intros [(_ & -> & ->)%guard_Abort|(w1 & u & [_ ->]%guard_Done & H)].
  - split; [done|among].
  - destruct (0 <? shots)%Z; [discriminate|].
    injection H as <- <-. split; [done|among].
Qed.

Lemma show_Abort (show : bool) w w' e :
  (if show then plt_show E else ret tt) w = Abort w' e ->
  w' = w /\ e = Raised PltShow /\ show = true.
Proof.
  destruct show; [|discriminate]. unfold plt_show.
  by intros (_ & -> & ->)%guard_Abort.
Qed.

End Calls.

(** ** The pipeline of [simulate_fsm_quantum] *)

Section Pipeline.

Context (E : env).
Implicit Types (w : world) (sensors : list value) (shots : Z).

(** What a completed invocation returned and left behind, and when an
    invocation completes. *)
Lemma simulate_Done sensors shots tag outdir show w w' counts cp hp :
  simulate_fsm_quantum E sensors shots tag outdir show w
    = Done w' (counts, cp, hp) <->
  runnable E sensors shots tag outdir show w /\
  counts = {[ expected_state sensors := shots ]} /\
  cp = circuit_path_of outdir tag /\
  hp = hist_path_of outdir tag /\
  w' = world_after sensors shots tag outdir w.
Proof.
  unfold simulate_fsm_quantum, runnable, writable.
  unfold circuit_path_of, hist_path_of.
  destruct (invalid_sensors sensors) eqn:Hv.
  { split; [discriminate|]. intros [[Hval _] _].
    apply invalid_sensors_false in Hval. congruence. }
  apply invalid_sensors_false in Hv. pose proof Hv as [Hlen _].
  rewrite (fsm_circuit_six _ Hlen). simpl lift.
  split.
  - intros H.
    apply bind_Done in H as (w1 & d & (Hav & -> & ->)%ensure_outdir_Done & H).
    apply bind_Done in H as (? & ? & [= <- <-] & H).
    apply bind_Done in H as (w2 & f1 & (Hdraw & Hf1 & ->)%drawn_Done & H).
    apply bind_Done in H as (w3 & [] & (Hcp & Hsave1 & ->)%savefig_Done & H).
    apply bind_Done in H as (w4 & [] & [= <-] & H).
    simpl in Hf1, Hcp, H.
    apply bind_Done in H as (w5 & tqc & (Htr & -> & ->)%transpile_Done & H).
    apply bind_Done in H
      as (w6 & c & (Hrun & Hshots & -> & ->)%run_counts_Done & H).
    apply bind_Done in H as (w7 & [] & [= <-] & H).
    apply bind_Done in H as (w8 & [] & [= <-] & H).
    apply bind_Done in H as (w9 & [] & [= <-] & H).
    apply bind_Done in H as (w10 & f2 & (Hhist & Hf2 & ->)%drawn_Done & H).
    apply bind_Done in H as (w11 & [] & (Hhp & Hsave2 & Hw11)%savefig_Done & H).
    apply bind_Done in H as (w12 & [] & Hshow & H).
    apply bind_Done in H as (w13 & [] & [= <-] & [= <- <- <- <-]).
    simpl in Hf2, Hhp, Hshow.
    apply show_Done in Hshow as [Hsh ->].
    subst w11 f2 f1. cbn [dirs files figures stdout] in *.
    rewrite !lookup_insert_eq.
    rewrite !delete_insert_id by apply fresh_figure_free.
    rewrite (shot_fsm _ Hlen). rewrite <- !app_assoc.
    split; [|done]. by repeat (split; [done|]).
  - intros ((_ & Hav & Hdraw & [Hcp Hsave1] & Htr & Hrun & Hshots & Hhist
             & [Hhp Hsave2] & Hsh) & -> & -> & -> & ->).
    unfold circuit_drawer, plot_histogram.
    erewrite bind_step
      by (apply ensure_outdir_Done; split; [exact Hav|split; reflexivity]).
    erewrite bind_step by reflexivity.
    erewrite bind_step
      by (apply drawn_Done; split; [exact Hdraw|split; reflexivity]).
    cbn [dirs files figures stdout].
    erewrite (bind_step _ _ _ _ tt)
      by (apply savefig_Done; split; [exact Hcp|];
          split; [exact Hsave1|reflexivity]).
    cbn [dirs files figures stdout].
    rewrite lookup_insert_eq.
    erewrite (bind_step _ _ _ _ tt) by reflexivity.
    cbn [dirs files figures stdout].
    rewrite delete_insert_id by apply fresh_figure_free.
    erewrite bind_step
      by (apply transpile_Done; split; [exact Htr|split; reflexivity]).
    erewrite bind_step
      by (apply run_counts_Done; split; [exact Hrun|];
          split; [exact Hshots|split; reflexivity]).
    rewrite (shot_fsm _ Hlen).
    do 3 (erewrite (bind_step _ _ _ _ tt) by reflexivity;
          cbn [dirs files figures stdout]).
    erewrite bind_step
      by (apply drawn_Done; split; [exact Hhist|split; reflexivity]).
    cbn [dirs files figures stdout].
    erewrite (bind_step _ _ _ _ tt)
      by (apply savefig_Done; split; [exact Hhp|];
          split; [exact Hsave2|reflexivity]).
    cbn [dirs files figures stdout].
    rewrite lookup_insert_eq.
    erewrite (bind_step _ _ _ _ tt)
      by (apply show_Done; split; [exact Hsh|reflexivity]).
    erewrite (bind_step _ _ _ _ tt) by reflexivity.
    cbn [dirs files figures stdout].
    rewrite delete_insert_id by apply fresh_figure_free.
    unfold ret, world_after. cbn [default]. rewrite <- !app_assoc.
    reflexivity.
Qed.

(** Where an invocation can abort, and what is on disk by then. *)
Lemma simulate_Abort sensors shots tag outdir show w w' e :
  simulate_fsm_quantum E sensors shots tag outdir show w = Abort w' e ->
  (e = ValueError /\ invalid_sensors sensors = true /\ w' = w) \/
  (valid_sensors sensors /\ before_circuit_image outdir tag e /\
   files w' = files w /\ stdout w' = stdout w) \/
  (valid_sensors sensors /\ after_circuit_image outdir tag e /\
   files w' = <[circuit_path_of outdir tag :=
                  CircuitDiagram (circuit_of sensors)]> (files w)) \/
  (valid_sensors sensors /\ e = Raised PltShow /\ show = true /\
   files w' = files (world_after sensors shots tag outdir w)).
Proof.
  unfold simulate_fsm_quantum, before_circuit_image, after_circuit_image.
  fold (circuit_path_of outdir tag) (hist_path_of outdir tag).
  destruct (invalid_sensors sensors) eqn:Hv.
  { intros [= <- <-]. by left. }
  intros H. right.
  apply invalid_sensors_false in Hv. pose proof Hv as [Hlen _].
  rewrite (fsm_circuit_six _ Hlen) in H. simpl lift in H.
  apply bind_Abort in H
    as [H|(w1 & d & (Hav & -> & ->)%ensure_outdir_Done & H)].
  { left. apply ensure_outdir_Abort in H as (-> & He).
    split; [done|]. split; [|done]. among. }
  apply bind_Abort in H as [[=]|(? & ? & [= <- <-] & H)].
  apply bind_Abort in H as [H|(w2 & f1 & (_ & Hf1 & ->)%drawn_Done & H)].
  { left. apply drawn_Abort in H as (-> & ->).
    split; [done|]. split; [|done]. among. }
  apply bind_Abort in H as [H|(w3 & [] & (_ & _ & ->)%savefig_Done & H)].
  { left. apply savefig_Abort in H as (-> & He).
    split; [done|]. split; [|done]. among. }
  apply bind_Abort in H as [[=]|(w4 & [] & [= <-] & H)].
  cbn [dirs files figures stdout] in H. subst f1.
  rewrite lookup_insert_eq in H. simpl default in H.
  right.
  apply bind_Abort in H as [H|(w5 & tqc & (_ & -> & ->)%transpile_Done & H)].
  { left. apply transpile_Abort in H as (-> & ->).
    split; [done|]. split; [|done]. among. }
  apply bind_Abort in H
    as [H|(w6 & c & (_ & Hshots & -> & ->)%run_counts_Done & H)].
  { left. apply run_counts_Abort in H as (-> & He).
    split; [done|]. split; [|done]. among. }
  apply bind_Abort in H as [[=]|(w7 & [] & [= <-] & H)].
  apply bind_Abort in H as [[=]|(w8 & [] & [= <-] & H)].
  apply bind_Abort in H as [[=]|(w9 & [] & [= <-] & H)].
  apply bind_Abort in H as [H|(w10 & f2 & (_ & Hf2 & ->)%drawn_Done & H)].
  { left. apply drawn_Abort in H as (-> & ->).
    split; [done|]. split; [|done]. among. }
  apply bind_Abort in H as [H|(w11 & [] & (_ & _ & ->)%savefig_Done & H)].
  { left. apply savefig_Abort in H as (-> & He).
    split; [done|]. split; [|done]. among. }
  apply bind_Abort in H as [H|(w12 & [] & (_ & ->)%show_Done & H)].
  { right. apply show_Abort in H as (-> & -> & ->).
    repeat (split; [done|]). cbn [dirs files figures stdout]. subst f2.
    rewrite lookup_insert_eq.
    by rewrite (shot_fsm _ Hlen). }
  apply bind_Abort in H as [[=]|(w13 & [] & [= <-] & [=])].
Qed.

End Pipeline.

(** ** Paths *)

Section Paths.

Implicit Types (a b : string).





End Paths.

(** ** The pipeline of [save_summary_hist] *)

Section Summary.

Context (E : env).
Implicit Types (w : world) (counts_dict : gmap string (gmap string Z)).


End Summary.

(** ** An invocation that completes *)

Lemma simulate_runs (sensors : list value) (shots : Z) (tag : string)
    (show : bool) :
  valid_sensors sensors -> (0 < shots)%Z ->
  simulate_fsm_quantum calm sensors shots tag default_outdir show empty_world =
    Done (world_after sensors shots tag default_outdir empty_world)
         ({[ expected_state sensors := shots ]},
          circuit_path_of default_outdir tag, hist_path_of default_outdir tag).
Proof.
  intros Hv Hs. apply simulate_Done.
  split; [|done]. unfold runnable, dir_available, writable, calm.
  repeat (split; try done).
  all: try (by right).
  all: cbn; rewrite elem_of_union, elem_of_singleton, elem_of_empty;
    intros [[=]|[]].
Qed.

(** The input error comes from the validation only. *)
Lemma valid_never_ValueError (E : env) (sensors : list value) (shots : Z)
    (tag outdir : string) (show : bool) (w w' : world) :
  valid_sensors sensors ->
  simulate_fsm_quantum E sensors shots tag outdir show w <> Abort w' ValueError.
Proof.
  intros Hv H. apply invalid_sensors_false in Hv.
  apply simulate_Abort in H
    as [(_ & Hi & _)|[(_ & He & _)|[(_ & He & _)|(_ & [=] & _)]]].
  - congruence.
  - unfold before_circuit_image in He. among.
  - unfold after_circuit_image in He. among.
Qed.

(** * The claims *)

(** C1. For every valid sensor vector the circuit that
    [simulate_fsm_quantum] builds realizes the encoding rule: the
    construction succeeds, the dominant key of its counts is "100" when all
    six readings are 0 ([all_abnormal], which is: each is 0 or [False]) and
    "000" for every other valid configuration, and this is the dominant key
    of the counts of every invocation that returns. *)
Theorem encoding_rule (sensors : list value) (shots : Z) :
  valid_sensors sensors -> (0 < shots)%Z ->
  (all_abnormal sensors = true <->
   Forall (fun v => v = VInt 0 \/ v = VBool false) sensors) /\
  fsm_circuit sensors = Some (circuit_of sensors) /\
  dominant (sample (circuit_of sensors) shots) =
    Some (if all_abnormal sensors then "100" else "000") /\
  forall E tag outdir show w w' counts cp hp,
    simulate_fsm_quantum E sensors shots tag outdir show w
      = Done w' (counts, cp, hp) ->
    dominant counts = Some (if all_abnormal sensors then "100" else "000").
Proof.
  intros [Hlen Hbin] Hs. split; [by apply all_abnormal_true|].
  split; [by apply fsm_circuit_six|]. split.
  - rewrite sample_singleton, dominant_singleton, shot_fsm by done. done.
  - intros E tag outdir show w w' counts cp hp H.
    apply simulate_Done in H as (_ & -> & _).
    by rewrite dominant_singleton.
Qed.

Lemma encoding_rule_witness :
  dominant (sample (circuit_of zeros) 1024) = Some "100" /\
  dominant (sample (circuit_of ones) 1024) = Some "000" /\
  dominant (sample (circuit_of [VInt 0; VInt 0; VInt 1; VInt 0; VInt 0; VInt 0])
                   1024) = Some "000".
Proof.
  split; [|split].
  - apply (encoding_rule zeros 1024);
      [apply invalid_sensors_false; reflexivity|lia].
  - apply (encoding_rule ones 1024);
      [apply invalid_sensors_false; reflexivity|lia].
  - apply (encoding_rule [VInt 0; VInt 0; VInt 1; VInt 0; VInt 0; VInt 0] 1024);
      [apply invalid_sensors_false; reflexivity|lia].
Defined.

(** C2. A sensor argument whose length is not 6, or that holds a value that
    is neither 0 nor 1, makes [simulate_fsm_quantum] raise [ValueError] in
    the world it was called in: no directory, file, figure or output has
    been produced.  A valid argument never raises it. *)
Theorem invalid_input_rejected (E : env) (sensors : list value) (shots : Z)
    (tag outdir : string) (show : bool) (w : world) :
  (length sensors <> 6 \/ (exists v, v ∈ sensors /\ ~ binary v) ->
   simulate_fsm_quantum E sensors shots tag outdir show w
     = Abort w ValueError) /\
  (valid_sensors sensors ->
   forall w', simulate_fsm_quantum E sensors shots tag outdir show w
                <> Abort w' ValueError).
Proof.
  split.
  - intros Hbad%invalid_sensors_true.
    unfold simulate_fsm_quantum. by rewrite Hbad.
  - intros Hv w'. by apply valid_never_ValueError.
Qed.

Lemma invalid_input_rejected_witness :
  simulate_fsm_quantum calm [VInt 0; VInt 2; VInt 0; VInt 0; VInt 0; VInt 0]
    default_shots default_tag default_outdir false empty_world
    = Abort empty_world ValueError /\
  simulate_fsm_quantum calm [VInt 0; VInt 1] default_shots default_tag
    default_outdir false empty_world = Abort empty_world ValueError /\
  forall w', simulate_fsm_quantum calm zeros default_shots default_tag
               default_outdir false empty_world <> Abort w' ValueError.
Proof.
  split; [|split].
  - apply (invalid_input_rejected calm
             [VInt 0; VInt 2; VInt 0; VInt 0; VInt 0; VInt 0]).
    right. exists (VInt 2). split.
    + apply list_elem_of_In. simpl. tauto.
    + intros [[|] [H|H]]; discriminate H.
  - apply (invalid_input_rejected calm [VInt 0; VInt 1]).
    left. simpl. lia.
  - apply (invalid_input_rejected calm zeros).
    apply invalid_sensors_false. reflexivity.
Defined.







(** C5. The counts that a completed invocation returns satisfy the
    invariants of a StateResult: they sum to the shot count, and every key
    is a bitstring of length 3. *)
Theorem counts_invariants (E : env) (sensors : list value) (shots : Z)
    (tag outdir : string) (show : bool) (w w' : world)
    (counts : gmap string Z) (cp hp : string) :
  simulate_fsm_quantum E sensors shots tag outdir show w
    = Done w' (counts, cp, hp) ->
  total counts = shots /\
  forall key n, counts !! key = Some n -> state_label key.
Proof.
  intros H. apply simulate_Done in H as (_ & -> & _). split.
  - apply total_singleton.
  - intros key n [<- _]%lookup_singleton_Some. apply expected_state_label.
Qed.

Lemma counts_invariants_witness :
  exists w' counts cp hp,
    simulate_fsm_quantum calm zeros default_shots default_tag default_outdir
      false empty_world = Done w' (counts, cp, hp) /\
    total counts = default_shots /\
    forall key n, counts !! key = Some n -> state_label key.
Proof.
  eexists _, _, _, _. split.
  - apply simulate_runs; [apply invalid_sensors_false; reflexivity|reflexivity].
  - eapply (counts_invariants calm zeros default_shots default_tag
              default_outdir false empty_world).
    apply simulate_runs; [apply invalid_sensors_false; reflexivity|reflexivity].
Defined.

(** C6. The readout maps the state qubits to the label high to low: qubit 6,
    the target of the multi-controlled X, is measured into classical bit 2
    and is the leftmost character of the key, qubit 7 goes to bit 1 and
    qubit 8 to bit 0, the rightmost character; the emergency state is
    therefore labelled "100" and not "001". *)
Theorem readout_high_to_low (sensors : list value) (qc : QuantumCircuit) :
  fsm_circuit sensors = Some qc ->
  (exists gates,
     data qc = gates ++ [MCXGate [0; 1; 2; 3; 4; 5] 6;
                         Measure 6 2; Measure 7 1; Measure 8 0]) /\
  (forall r : register,
     length (clbits r) = 3 ->
     bitstring (clbits (foldl exec r [Measure 6 2; Measure 7 1; Measure 8 0])) =
       String (bit_char (default false (qubits r !! 6)))
         (String (bit_char (default false (qubits r !! 7)))
            (String (bit_char (default false (qubits r !! 8))) EmptyString))) /\
  (length sensors = 6 -> all_abnormal sensors = true ->
   shot qc = "100" /\ shot qc <> "001").
Proof.
  intros ->%fsm_circuit_Some. split; [|split].
  - exists (x_gates 0 sensors). reflexivity.
  - apply readout_order.
  - intros Hlen Hall. rewrite shot_fsm by done.
    unfold expected_state. rewrite Hall. done.
Qed.

Lemma readout_high_to_low_witness :
  bitstring (clbits (foldl exec
     {| qubits := replicate 6 false ++ [true; false; false];
        clbits := replicate 3 false |}
     [Measure 6 2; Measure 7 1; Measure 8 0])) = "100" /\
  shot (circuit_of zeros) = "100".
Proof.
  split.
  - apply (proj1 (proj2 (readout_high_to_low zeros (circuit_of zeros)
                           (fsm_circuit_six zeros eq_refl)))).
    reflexivity.
  - apply (proj2 (proj2 (readout_high_to_low zeros (circuit_of zeros)
                           (fsm_circuit_six zeros eq_refl)))); reflexivity.
Defined.

(** ** Running again *)

Lemma made_dir (d : string) (ds : gset string) : d ∈ {[d]} ∪ ds.
Proof. apply elem_of_union_l, elem_of_singleton. reflexivity. Qed.








(** C9. The counts depend on the sensors and the shot count only: two
    completed invocations with the same sensors and shots return equal
    counts, whatever their tags, output directories, [show] flags, worlds
    and environments. *)
Theorem counts_independent_of_presentation (sensors : list value) (shots : Z)
    (E1 E2 : env) (tag1 tag2 outdir1 outdir2 : string) (show1 show2 : bool)
    (w1 w2 w1' w2' : world) (counts1 counts2 : gmap string Z)
    (cp1 cp2 hp1 hp2 : string) :
  simulate_fsm_quantum E1 sensors shots tag1 outdir1 show1 w1
    = Done w1' (counts1, cp1, hp1) ->
  simulate_fsm_quantum E2 sensors shots tag2 outdir2 show2 w2
    = Done w2' (counts2, cp2, hp2) ->
  counts1 = counts2.
Proof.
  intros (_ & -> & _)%simulate_Done (_ & -> & _)%simulate_Done. reflexivity.
Qed.

Lemma counts_independent_of_presentation_witness :
  exists w1' w2' counts1 counts2 cp1 cp2 hp1 hp2,
    simulate_fsm_quantum calm zeros 16 "emergency" default_outdir false
      empty_world = Done w1' (counts1, cp1, hp1) /\
    simulate_fsm_quantum calm zeros 16 "again" default_outdir true
      empty_world = Done w2' (counts2, cp2, hp2) /\
    counts1 = counts2.
Proof.
  assert (Hv : valid_sensors zeros)
    by (apply invalid_sensors_false; reflexivity).
  pose proof (simulate_runs zeros 16 "emergency" false Hv eq_refl) as H1.
  pose proof (simulate_runs zeros 16 "again" true Hv eq_refl) as H2.
  eexists _, _, _, _, _, _, _, _.
  split; [exact H1|]. split; [exact H2|].
  exact (counts_independent_of_presentation _ _ _ _ _ _ _ _ _ _ _ _ _ _ _ _
           _ _ _ _ H1 H2).
Defined.

(** ** Booleans as readings *)




(** * Further properties of the script *)

(** ** Abort points of [simulate_fsm_quantum] *)

Section AbortPoints.

Context (E : env).
Implicit Types (w : world) (sensors : list value) (shots : Z).

(** An aborted invocation stopped at one of the nine abort points, in the
    world of that point and with one of its exceptions. *)
Lemma simulate_Abort_at sensors shots tag outdir show w w' e :
  simulate_fsm_quantum E sensors shots tag outdir show w = Abort w' e ->
  exists pt,
    w' = world_at pt sensors shots tag outdir w /\
    e ∈ raised_at pt tag outdir /\
    (pt = AtValidation -> invalid_sensors sensors = true) /\
    (pt <> AtValidation -> valid_sensors sensors) /\
    (pt = AtShow -> show = true).
Proof.
  unfold simulate_fsm_quantum.
  fold (circuit_path_of outdir tag) (hist_path_of outdir tag).
  destruct (invalid_sensors sensors) eqn:Hv.
  { intros [= <- <-]. exists AtValidation. cbn.
    split; [done|]. split; [among|]. done. }
  intros H.
  apply invalid_sensors_false in Hv. pose proof Hv as [Hlen _].
  rewrite (fsm_circuit_six _ Hlen) in H. simpl lift in H.
  unfold circuit_drawer, plot_histogram in H.
  apply bind_Abort in H
    as [H|(w1 & d & (Hav & -> & ->)%ensure_outdir_Done & H)].
  { apply ensure_outdir_Abort in H as (-> & He). exists AtMakedirs.
    split; [done|]. split; [exact He|]. split_and!; try done. }
  apply bind_Abort in H as [[=]|(? & ? & [= <- <-] & H)].
  apply bind_Abort in H as [H|(w2 & f1 & (_ & -> & ->)%drawn_Done & H)].
  { apply drawn_Abort in H as (-> & ->). exists AtCircuitDrawer.
    split; [done|]. split; [cbn; among|]. split_and!; try done. }
  cbn [dirs files figures stdout] in H.
  apply bind_Abort in H as [H|(w3 & [] & (_ & _ & ->)%savefig_Done & H)].
  { apply savefig_Abort in H as (-> & He). exists AtSaveCircuit.
    split; [done|]. split; [exact He|]. split_and!; try done. }
  cbn [dirs files figures stdout] in H. rewrite lookup_insert_eq in H.
  apply bind_Abort in H as [[=]|(w4 & [] & [= <-] & H)].
  cbn [dirs files figures stdout default] in H.
  rewrite delete_insert_id in H by apply fresh_figure_free.
  apply bind_Abort in H as [H|(w5 & tqc & (_ & -> & ->)%transpile_Done & H)].
  { apply transpile_Abort in H as (-> & ->). exists AtTranspile.
    split; [done|]. split; [cbn; among|]. split_and!; try done. }
  apply bind_Abort in H
    as [H|(w6 & c & (_ & Hshots & -> & ->)%run_counts_Done & H)].
  { apply run_counts_Abort in H as (-> & He). exists AtRun.
    split; [done|]. split; [exact He|]. split_and!; try done. }
  rewrite (shot_fsm _ Hlen) in H.
  apply bind_Abort in H as [[=]|(w7 & [] & [= <-] & H)].
  cbn [dirs files figures stdout] in H.
  apply bind_Abort in H as [[=]|(w8 & [] & [= <-] & H)].
  cbn [dirs files figures stdout] in H.
  apply bind_Abort in H as [[=]|(w9 & [] & [= <-] & H)].
  cbn [dirs files figures stdout] in H. rewrite <- !app_assoc in H.
  apply bind_Abort in H as [H|(w10 & f2 & (_ & -> & ->)%drawn_Done & H)].
  { apply drawn_Abort in H as (-> & ->). exists AtPlotHistogram.
    split; [done|]. split; [cbn; among|]. split_and!; try done. }
  cbn [dirs files figures stdout] in H.
  apply bind_Abort in H as [H|(w11 & [] & (_ & _ & ->)%savefig_Done & H)].
  { apply savefig_Abort in H as (-> & He). exists AtSaveHistogram.
    split; [done|]. split; [exact He|]. split_and!; try done. }
  cbn [dirs files figures stdout] in H. rewrite lookup_insert_eq in H.
  cbn [default] in H.
  apply bind_Abort in H as [H|(w12 & [] & (_ & ->)%show_Done & H)].
  { apply show_Abort in H as (-> & -> & ->). exists AtShow.
    split; [done|]. split; [cbn; among|]. split_and!; try done. }
  apply bind_Abort in H as [[=]|(w13 & [] & [= <-] & [=])].
Qed.

End AbortPoints.





(** X3. Nothing is ever removed: whatever the outcome, every file and every
    directory that existed before the invocation exists after it, and what
    had been printed is still the beginning of the output. *)
Theorem simulate_never_removes (E : env) (sensors : list value) (shots : Z)
    (tag outdir : string) (show : bool) (w : world) :
  let w' := world_of (simulate_fsm_quantum E sensors shots tag outdir show w) in
  dirs w ⊆ dirs w' /\
  dom (files w) ⊆ dom (files w') /\
  stdout w `prefix_of` stdout w'.
Proof.
  destruct (simulate_fsm_quantum E sensors shots tag outdir show w)
    as [w' [[counts cp] hp]|w' e] eqn:H; cbn [world_of].
  - apply simulate_Done in H as (_ & _ & _ & _ & ->).
    cbn [world_after files dirs stdout]. rewrite !dom_insert_L.
    split; [apply union_subseteq_r|].
    split; [|by apply prefix_app_r].
    etrans; [|apply union_subseteq_r]. apply union_subseteq_r.
  - apply simulate_Abort_at in H as (pt & -> & _).
    destruct pt; cbn; rewrite ?dom_insert_L;
      (split; [try done; apply union_subseteq_r|]);
      (split; [|try done; by apply prefix_app_r]);
      try done; try apply union_subseteq_r.
    etrans; [|apply union_subseteq_r]. apply union_subseteq_r.
Qed.





(** ** Tags and file names *)

Section Tags.

Implicit Types (a b tag outdir : string).






End Tags.







(** ** [save_summary_hist] *)

Section SummaryAborts.

Context (E : env).
Implicit Types (w : world) (counts_dict : gmap string (gmap string Z)).


End SummaryAborts.







(** X11. The edge cases of the output directory (lines 10-12, 30, 80).
    With [exist_ok=True] a directory that exists is accepted as it is, even
    where creating it would be refused; an empty name, or the name of an
    existing file, raises, and a valid [simulate_fsm_quantum] and
    [save_summary_hist] abort with that exception in the unchanged world. *)
Theorem output_directory_edge_cases (E : env) (outdir : string) (w : world) :
  (outdir <> "" -> outdir ∈ dirs w ->
   ensure_outdir E outdir w = Done w outdir) /\
  (forall e,
     (outdir = "" /\ e = FileNotFoundError) \/
     (outdir <> "" /\ (outdir ∉ dirs w) /\ is_Some (files w !! outdir) /\
      e = FileExistsError) ->
     ensure_outdir E outdir w = Abort w e /\
     (forall counts_dict filename,
        save_summary_hist E counts_dict outdir filename w = Abort w e) /\
     (forall sensors shots tag show,
        valid_sensors sensors ->
        simulate_fsm_quantum E sensors shots tag outdir show w = Abort w e)).
Proof.
  split.
  - intros Hne Hin. unfold ensure_outdir, bind, os_makedirs, ret.
    destruct (String.eqb_spec outdir ""); [done|].
    by rewrite bool_decide_eq_true_2.
  - intros e Hcase.
    assert (ensure_outdir E outdir w = Abort w e) as Hens.
    { unfold ensure_outdir, bind, os_makedirs.
      destruct Hcase as [[-> ->]|(Hne & Hnin & Hfile & ->)]; [done|].
      destruct (String.eqb_spec outdir ""); [done|].
      rewrite bool_decide_eq_false_2 by done.
      by rewrite bool_decide_eq_true_2. }
    split; [done|]. split.
    + intros counts_dict filename. unfold save_summary_hist, bind.
      by rewrite Hens.
    + intros sensors shots tag show Hv%invalid_sensors_false.
      unfold simulate_fsm_quantum. rewrite Hv. unfold bind at 1.
      by rewrite Hens.
Qed.

Lemma output_directory_edge_cases_witness :
  ensure_outdir (fun _ => true) "outputs" (with_dir "outputs" empty_world)
    = Done (with_dir "outputs" empty_world) "outputs" /\
  simulate_fsm_quantum calm zeros default_shots default_tag "" false
    empty_world = Abort empty_world FileNotFoundError /\
  save_summary_hist calm ∅ "taken" default_filename
    (with_file "taken" Blank empty_world)
    = Abort (with_file "taken" Blank empty_world) FileExistsError.
Proof.
  split; [|split].
  - apply (proj1 (output_directory_edge_cases (fun _ => true) "outputs"
                    (with_dir "outputs" empty_world))).
    + discriminate.
    + apply made_dir.
  - apply (proj2 (output_directory_edge_cases calm "" empty_world)
             FileNotFoundError).
    + left. split; reflexivity.
    + apply invalid_sensors_false. reflexivity.
  - apply (proj2 (output_directory_edge_cases calm "taken"
                    (with_file "taken" Blank empty_world)) FileExistsError).
    right. split; [discriminate|]. split; [|split; [|reflexivity]].
    + cbn. apply not_elem_of_empty.
    + cbn. rewrite lookup_insert_eq. eauto.
Defined.

(** ** The sensor loop and the rule on the register *)

Section SensorLoop.

Implicit Types (sensors : list value) (r : register) (q i : nat).

Lemma x_gates_length sensors : forall i,
  length (x_gates i sensors) = count_abnormal sensors.
Proof.
  unfold count_abnormal.
  induction sensors as [|v rest IH]; intros i; [done|].
  cbn [x_gates]. rewrite length_app, IH, filter_cons.
  destruct (abnormal v) eqn:Hv.
  - by rewrite decide_True.
  - by rewrite decide_False.
Qed.

Lemma x_gates_NoDup sensors : forall i, NoDup (x_gates i sensors).
Proof.
  induction sensors as [|v rest IH]; intros i; [apply NoDup_nil_2|].
  cbn [x_gates]. destruct (abnormal v); [|apply IH].
  apply NoDup_cons. split; [|apply IH].
  intros Hin. pose proof (x_gates_sensor_lines rest (S i)) as HF.
  rewrite Forall_forall in HF.
  destruct (HF _ Hin) as (q & [= <-] & Hq). lia.
Qed.



End SensorLoop.

(** X12. The gates of the sensor loop (lines 36-38): an X gate lies on line
    [q] exactly when reading [q] equals 0, no line carries two, and the
    circuit has as many X gates as abnormal readings, followed by the
    multi-controlled X and the three measurements. *)
Theorem sensor_loop_gates (sensors : list value) (qc : QuantumCircuit) :
  fsm_circuit sensors = Some qc ->
  (forall q, XGate q ∈ data qc <-> abnormal <$> sensors !! q = Some true) /\
  NoDup (data qc) /\
  length (data qc) = count_abnormal sensors + 4.
Proof.
  intros ->%fsm_circuit_Some. unfold circuit_of. cbn [data].
  assert (forall g, g ∈ rule_and_readout -> forall q, g <> XGate q) as Hrule.
  { unfold rule_and_readout. intros g Hg q.
    rewrite !elem_of_cons, elem_of_nil in Hg.
    destruct Hg as [->|[->|[->|[->|[]]]]]; discriminate. }
  split; [|split].
  - intros q. rewrite elem_of_app.
    rewrite <- (x_gates_abnormal sensors q 0). cbn.
    split; [|by left]. intros [Hin|Hin]; [done|].
    by destruct (Hrule _ Hin q).
  - apply NoDup_app. split; [apply x_gates_NoDup|]. split.
    + intros g Hg Hr.
      pose proof (x_gates_sensor_lines sensors 0) as HF.
      rewrite Forall_forall in HF. destruct (HF _ Hg) as (q & -> & _).
      by destruct (Hrule _ Hr q).
    + unfold rule_and_readout.
      repeat (apply NoDup_cons; split; [among|]). apply NoDup_nil_2.
  - rewrite length_app, x_gates_length. reflexivity.
Qed.

Lemma sensor_loop_gates_witness :
  length (data (circuit_of [VInt 0; VInt 1; VInt 0; VInt 1; VInt 1; VInt 0]))
    = count_abnormal [VInt 0; VInt 1; VInt 0; VInt 1; VInt 1; VInt 0] + 4.
Proof.
  apply (sensor_loop_gates [VInt 0; VInt 1; VInt 0; VInt 1; VInt 1; VInt 0]
           (circuit_of [VInt 0; VInt 1; VInt 0; VInt 1; VInt 1; VInt 0])).
  reflexivity.
Defined.






(** ** The script as a whole *)




(** ** The [show] flag *)



